(** * ICMPv6 layer of NetStalker: [src/layers/network/icmpv6.c]

    A shallow embedding of [message_handler] and [cast_icmp6] together with
    the four static message tables, and the properties of the type/code
    classification they implement.

    The C function writes to [stdout] and [stderr], indexes constant arrays
    and returns an [int].  The embedding keeps all three: a computation
    yields its value together with the lines written, in order, or has no
    defined behaviour when an array is read past its end. *)

From Stdlib Require Import ZArith List String Ascii Bool Lia HexString.
From Stdlib.Strings Require Import Byte.
Import ListNotations.
Local Open Scope string_scope.
Local Open Scope Z_scope.

(** ** Output streams and undefined behaviour *)

Inductive stream : Type := stdout | stderr.

Definition event : Type := (stream * string)%type.

(** [None] is a run that left the defined behaviour of C (an array read
    out of bounds); [Some (v, w)] returned [v] after writing [w]. *)
Definition M (A : Type) : Type := option (A * list event).

Definition ret {A : Type} (a : A) : M A := Some (a, []).

Definition bind {A B : Type} (m : M A) (k : A -> M B) : M B :=
  match m with
  | None => None
  | Some (a, w) =>
      match k a with
      | None => None
      | Some (b, w') => Some (b, (w ++ w')%list)
      end
  end.

Definition undefined {A : Type} : M A := None.

Notation "x <- m ;; k" := (bind m (fun x => k))
  (at level 61, m at next level, right associativity).
Notation "m ;; k" := (bind m (fun _ => k))
  (at level 61, right associativity).

Definition fprintf (f : stream) (s : string) : M unit := Some (tt, [(f, s)]).

Definition printf (s : string) : M unit := fprintf stdout s.

(** [a[i]] on a constant array of C strings. *)
Definition index (a : list string) (i : Z) : M string :=
  if i <? 0 then undefined
  else match nth_error a (Z.to_nat i) with
       | Some s => ret s
       | None => undefined
       end.

(** The line feed of the C literals. *)
Definition LF : string := String "010"%char EmptyString.

(** [%x] applied to an [int] argument: lower-case hexadecimal of the value
    read as a 32-bit unsigned integer, no leading zero. *)
Definition fmt_x (v : Z) : string :=
  match v mod 2 ^ 32 with
  | Zpos p => HexString.Raw.of_pos p EmptyString
  | _ => "0"
  end.

(** How a [case] body leaves the [switch]. *)
Inductive ctl : Type :=
| Return (v : Z)
| Break.

(** A [switch] over integer labels.  C requires the labels of one switch to
    be pairwise distinct, so the first match is the only one. *)
Fixpoint switch {A : Type} (v : Z) (cases : list (Z * A)) (default : A) : A :=
  match cases with
  | [] => default
  | (l, body) :: rest => if v =? l then body else switch v rest default
  end.

(** ** Data *)

(** The two fields of [struct icmp6_hdr] that the layer reads. *)
Record icmp6_hdr : Type := {
  icmp6_type : Z;
  icmp6_code : Z
}.

Definition hdr (type code : Z) : icmp6_hdr :=
  {| icmp6_type := type; icmp6_code := code |}.

(** Both fields are [uint8_t]. *)
Definition uint8 (v : Z) : Prop := 0 <= v <= 255.

(** The message type constants come from [icmpv6.h] and, through it, from
    [<netinet/icmp6.h>]; neither is part of the sources, so the layer is
    verified for any assignment of values to the names. *)
Class icmp6_types : Type := {
  ICMP6_DST_UNREACH : Z;
  ICMP6_PACKET_TOO_BIG : Z;
  ICMP6_TIME_EXCEEDED : Z;
  ICMP6_PARAM_PROB : Z;
  ICMP6_ECHO_REQUEST : Z;
  ICMP6_ECHO_REPLY : Z;
  MLD_LISTENER_QUERY : Z;
  MLD_LISTENER_REPORT : Z;
  MLD_LISTENER_REDUCTION : Z;
  ND_ROUTER_SOLICIT : Z;
  ND_ROUTER_ADVERT : Z;
  ND_NEIGHBOR_SOLICIT : Z;
  ND_NEIGHBOR_ADVERT : Z;
  ND_REDIRECT : Z;
  ICMP6_ROUTER_RENUMBERING : Z;
  ICMP6_NODE_INFORMATION_QUERY : Z;
  ICMP6_NODE_INFORMATION_RESPONSE : Z;
  ICMP6_INVERSE_NEIGHBOR_DISCOVERY_SOLICITATION_MESSAGE : Z;
  ICMP6_INVERSE_NEIGHBOR_DISCOVERY_ADVERTISEMENT_MESSAGE : Z;
  ICMP6_MULTICAST_LISTENER_DISCOVERY_REPORTS : Z;
  ICMP6_HOME_AGENT_ADDRESS_DISCOVERY_REQUEST : Z;
  ICMP6_HOME_AGENT_ADDRESS_DISCOVERY_REPLY : Z;
  ICMP6_MOBILE_PREFIX_SOLICITATION : Z;
  ICMP6_MOBILE_PREFIX_ADVERTISEMENT : Z;
  ICMP6_CERTIFICATION_PATH_SOLICITATION : Z;
  ICMP6_CERTIFICATION_PATH_ADVERTISEMENT : Z;
  ICMP6_MULTICAST_ROUTER_SOLICITATION : Z;
  ICMP6_MULTICAST_ROUTER_ADVERTISEMENT : Z;
  ICMP6_MULTICAST_ROUTER_TERMINATION : Z;
  ICMP6_RPL_CONTROL_MESSAGE : Z;
  ICMPV6_EXT_ECHO_REQUEST : Z;
  ICMPV6_EXT_ECHO_REPLY : Z
}.

(** Modelled from the spec: the header [icmpv6.h] that defines the type
    constants is missing.  The spec fixes Destination Unreachable = 1,
    Echo Request = 128 and Router Renumbering = 138 and leaves 250
    unassigned; the other names take their IANA numbers, which is what
    [<netinet/icmp6.h>] declares for the names it owns.  Used for the
    concrete runs only. *)
Definition iana : icmp6_types := {|
  ICMP6_DST_UNREACH := 1;
  ICMP6_PACKET_TOO_BIG := 2;
  ICMP6_TIME_EXCEEDED := 3;
  ICMP6_PARAM_PROB := 4;
  ICMP6_ECHO_REQUEST := 128;
  ICMP6_ECHO_REPLY := 129;
  MLD_LISTENER_QUERY := 130;
  MLD_LISTENER_REPORT := 131;
  MLD_LISTENER_REDUCTION := 132;
  ND_ROUTER_SOLICIT := 133;
  ND_ROUTER_ADVERT := 134;
  ND_NEIGHBOR_SOLICIT := 135;
  ND_NEIGHBOR_ADVERT := 136;
  ND_REDIRECT := 137;
  ICMP6_ROUTER_RENUMBERING := 138;
  ICMP6_NODE_INFORMATION_QUERY := 139;
  ICMP6_NODE_INFORMATION_RESPONSE := 140;
  ICMP6_INVERSE_NEIGHBOR_DISCOVERY_SOLICITATION_MESSAGE := 141;
  ICMP6_INVERSE_NEIGHBOR_DISCOVERY_ADVERTISEMENT_MESSAGE := 142;
  ICMP6_MULTICAST_LISTENER_DISCOVERY_REPORTS := 143;
  ICMP6_HOME_AGENT_ADDRESS_DISCOVERY_REQUEST := 144;
  ICMP6_HOME_AGENT_ADDRESS_DISCOVERY_REPLY := 145;
  ICMP6_MOBILE_PREFIX_SOLICITATION := 146;
  ICMP6_MOBILE_PREFIX_ADVERTISEMENT := 147;
  ICMP6_CERTIFICATION_PATH_SOLICITATION := 148;
  ICMP6_CERTIFICATION_PATH_ADVERTISEMENT := 149;
  ICMP6_MULTICAST_ROUTER_SOLICITATION := 152;
  ICMP6_MULTICAST_ROUTER_ADVERTISEMENT := 151;
  ICMP6_MULTICAST_ROUTER_TERMINATION := 153;
  ICMP6_RPL_CONTROL_MESSAGE := 155;
  ICMPV6_EXT_ECHO_REQUEST := 160;
  ICMPV6_EXT_ECHO_REPLY := 161
|}.

(** ** The message tables *)

Definition destination_unreachable_message_v6 : list string := [
  "No route to destination";
  "Communication with destination administratively prohibited";
  "Beyond scope of source address";
  "Port unreachable";
  "Source address failed ingress/egress policy";
  "Reject route to destination";
  "Error in source routing header"].

Definition time_exceeded_message_v6 : list string := [
  "Hop limit exceeded in transit"; "Fragment reassembly time exceeded"].

Definition bad_ip_header_message_v6 : list string := [
  "Erroneous header field encountered";
  "Unrecognized Next Header type encountered";
  "Unrecognized IPv6 option encountered"].

Definition extended_echo_reply_message_v6 : list string := [
  "No error"; "Malformed query"; "No such interface"; "No such table entry";
  "Multipe interfaces satisfy query"].

(** ** The handlers *)

(** The value of an octet as the [uint8_t] fields see it. *)
Definition u8 (b : byte) : Z := Z.of_N (Byte.to_N b).

Section Handlers.

Context {K : icmp6_types}.

(** Every [case] spells out its own check and its own messages, as in the
    source; a [break] leaves the [switch] for the final [return 0]. *)
Definition message_handler (icmp6 : icmp6_hdr) : M Z :=
  let code := icmp6_code icmp6 in
  c <- switch (icmp6_type icmp6) [
    (ICMP6_DST_UNREACH,
      if code >? 7 then
        fprintf stderr ("Bad ICMP6 code" ++ LF) ;; ret (Return (-1))
      else
        s <- index destination_unreachable_message_v6 code ;;
        printf ("ICMP6 Destination Unreachable: " ++ s ++ LF) ;; ret Break);
    (ICMP6_PACKET_TOO_BIG,
      if code >? 0 then
        fprintf stderr ("Bad ICMP6 code" ++ LF) ;; ret (Return (-1))
      else
        printf ("ICMP6 Packet too big" ++ LF) ;; ret Break);
    (ICMP6_TIME_EXCEEDED,
      if code >? 0 then
        fprintf stderr ("Bad ICMP code" ++ LF) ;; ret (Return (-1))
      else
        s <- index time_exceeded_message_v6 code ;;
        printf ("ICMP6 Time Exceeded: " ++ s ++ LF) ;; ret Break);
    (ICMP6_PARAM_PROB,
      if code >? 0 then
        fprintf stderr ("Bad ICMP code" ++ LF) ;; ret (Return (-1))
      else
        s <- index bad_ip_header_message_v6 code ;;
        printf ("ICMP6 Bad IP header: " ++ s ++ LF) ;; ret Break);
    (ICMP6_ECHO_REQUEST,
      if code >? 0 then
        fprintf stderr ("Bad ICMP code" ++ LF) ;; ret (Return (-1))
      else
        printf "ICMP6 Echo Request" ;; ret Break);
    (ICMP6_ECHO_REPLY,
      if code >? 0 then
        fprintf stderr ("Bad ICMP code" ++ LF) ;; ret (Return (-1))
      else
        printf ("ICMP6 Echo Reply" ++ LF) ;; ret Break);
    (MLD_LISTENER_QUERY,
      if code >? 0 then
        fprintf stderr ("Bad ICMP code" ++ LF) ;; ret (Return (-1))
      else
        printf ("MLD Multicast Listener Query" ++ LF) ;; ret Break);
    (MLD_LISTENER_REPORT,
      if code >? 0 then
        fprintf stderr ("Bad ICMP code" ++ LF) ;; ret (Return (-1))
      else
        printf ("MLD Multicast Listener Report" ++ LF) ;; ret Break);
    (MLD_LISTENER_REDUCTION,
      if code >? 0 then
        fprintf stderr ("Bad ICMP code" ++ LF) ;; ret (Return (-1))
      else
        printf ("MLD Multicast Listener Done" ++ LF) ;; ret Break);
    (ND_ROUTER_SOLICIT,
      if code >? 0 then
        fprintf stderr ("Bad ICMP code" ++ LF) ;; ret (Return (-1))
      else
        printf ("NDP Router Solicitation" ++ LF) ;; ret Break);
    (ND_ROUTER_ADVERT,
      if code >? 0 then
        fprintf stderr ("Bad ICMP code" ++ LF) ;; ret (Return (-1))
      else
        printf ("NDP Router Advertisement" ++ LF) ;; ret Break);
    (ND_NEIGHBOR_SOLICIT,
      if code >? 0 then
        fprintf stderr ("Bad ICMP code" ++ LF) ;; ret (Return (-1))
      else
        printf ("NDP Neighbor Solicitation" ++ LF) ;; ret Break);
    (ND_NEIGHBOR_ADVERT,
      if code >? 0 then
        fprintf stderr ("Bad ICMP code" ++ LF) ;; ret (Return (-1))
      else
        printf ("NDP Neighbor Advertisement" ++ LF) ;; ret Break);
    (ND_REDIRECT,
      if code >? 0 then
        fprintf stderr ("Bad ICMP code" ++ LF) ;; ret (Return (-1))
      else
        printf ("NDP Redirect Message" ++ LF) ;; ret Break);
    (ICMP6_ROUTER_RENUMBERING,
      if (code >? 1) && (code <? 255) then
        fprintf stderr ("Bad ICMP code" ++ LF) ;; ret (Return (-1))
      else
        printf ("ICMP6 Router Renumbering" ++ LF) ;; ret Break);
    (ICMP6_NODE_INFORMATION_QUERY,
      if code >? 2 then
        fprintf stderr ("Bad ICMP code" ++ LF) ;; ret (Return (-1))
      else
        printf ("ICMP6 Node Information Query" ++ LF) ;; ret Break);
    (ICMP6_NODE_INFORMATION_RESPONSE,
      if code >? 2 then
        fprintf stderr ("Bad ICMP code" ++ LF) ;; ret (Return (-1))
      else
        printf ("ICMP6 Node Information Response" ++ LF) ;; ret Break);
    (ICMP6_INVERSE_NEIGHBOR_DISCOVERY_SOLICITATION_MESSAGE,
      if code >? 0 then
        fprintf stderr ("Bad ICMP code" ++ LF) ;; ret (Return (-1))
      else
        printf ("ICMP6 Inverse Neighbor Discovery Solicitation message" ++ LF) ;;
        ret Break);
    (ICMP6_INVERSE_NEIGHBOR_DISCOVERY_ADVERTISEMENT_MESSAGE,
      if code >? 0 then
        fprintf stderr ("Bad ICMP code" ++ LF) ;; ret (Return (-1))
      else
        printf ("ICMP6 Inverse Neighbor Discovery Advertisement messsage" ++ LF) ;;
        ret Break);
    (ICMP6_MULTICAST_LISTENER_DISCOVERY_REPORTS,
      if code >? 0 then
        fprintf stderr ("Bad ICMP code" ++ LF) ;; ret (Return (-1))
      else
        printf ("ICMP6 Multicast Listener Discovery Reports" ++ LF) ;; ret Break);
    (ICMP6_HOME_AGENT_ADDRESS_DISCOVERY_REQUEST,
      if code >? 0 then
        fprintf stderr ("Bad ICMP code" ++ LF) ;; ret (Return (-1))
      else
        printf ("ICMP6 Home Agent Address Discovery Request" ++ LF) ;; ret Break);
    (ICMP6_HOME_AGENT_ADDRESS_DISCOVERY_REPLY,
      if code >? 0 then
        fprintf stderr ("Bad ICMP code" ++ LF) ;; ret (Return (-1))
      else
        printf ("ICMP6 Home Agent Address Discovery Reply" ++ LF) ;; ret Break);
    (ICMP6_MOBILE_PREFIX_SOLICITATION,
      if code >? 0 then
        fprintf stderr ("Bad ICMP code" ++ LF) ;; ret (Return (-1))
      else
        printf ("ICMP6 Mobile Prefix Solicitation" ++ LF) ;; ret Break);
    (ICMP6_MOBILE_PREFIX_ADVERTISEMENT,
      if code >? 0 then
        fprintf stderr ("Bad ICMP code" ++ LF) ;; ret (Return (-1))
      else
        printf ("ICMP6 Mobile Prefix Advertisement" ++ LF) ;; ret Break);
    (ICMP6_CERTIFICATION_PATH_SOLICITATION,
      if code >? 0 then
        fprintf stderr ("Bad ICMP code" ++ LF) ;; ret (Return (-1))
      else
        printf ("ICMP6 Certififcation Path Solicitation" ++ LF) ;; ret Break);
    (ICMP6_CERTIFICATION_PATH_ADVERTISEMENT,
      if code >? 0 then
        fprintf stderr ("Bad ICMP code" ++ LF) ;; ret (Return (-1))
      else
        printf ("ICMP6 Certification Path Advertisement" ++ LF) ;; ret Break);
    (ICMP6_MULTICAST_ROUTER_SOLICITATION,
      if code >? 0 then
        fprintf stderr ("Bad ICMP code" ++ LF) ;; ret (Return (-1))
      else
        printf ("ICMP6 Multicast Router Solicitation" ++ LF) ;; ret Break);
    (ICMP6_MULTICAST_ROUTER_ADVERTISEMENT,
      if code >? 0 then
        fprintf stderr ("Bad ICMP code" ++ LF) ;; ret (Return (-1))
      else
        printf ("ICMP6 Multicast Router Advertisement" ++ LF) ;; ret Break);
    (ICMP6_MULTICAST_ROUTER_TERMINATION,
      if code >? 0 then
        fprintf stderr ("Bad ICMP code" ++ LF) ;; ret (Return (-1))
      else
        printf ("ICMP6 Multicast Router Termination" ++ LF) ;; ret Break);
    (ICMP6_RPL_CONTROL_MESSAGE,
      if code >? 0 then
        fprintf stderr ("Bad ICMP code" ++ LF) ;; ret (Return (-1))
      else
        printf ("ICMP6 RPL Control Message" ++ LF) ;; ret Break);
    (ICMPV6_EXT_ECHO_REQUEST,
      if code >? 0 then
        fprintf stderr ("Bad ICMP code" ++ LF) ;; ret (Return (-1))
      else
        printf ("ICMP6 Extended Echo Request" ++ LF) ;; ret Break);
    (ICMPV6_EXT_ECHO_REPLY,
      if code >? 0 then
        fprintf stderr ("Bad ICMP code" ++ LF) ;; ret (Return (-1))
      else
        s <- index extended_echo_reply_message_v6 code ;;
        printf ("ICMP6 Extended Echo Reply: " ++ s ++ LF) ;; ret Break)
  ] (fprintf stderr ("Unknown ICMP type. ICMP TYPE: 0x" ++ fmt_x code ++ LF) ;;
     ret Break) ;;
  match c with
  | Return v => ret v
  | Break => ret 0
  end.

(** One octet of the packet buffer, read as [uint8_t]. *)
Definition load_u8 (packet : list byte) (off : nat) : M Z :=
  match nth_error packet off with
  | Some b => ret (u8 b)
  | None => undefined
  end.

(** [cast_icmp6] views the buffer as a [struct icmp6_hdr]: octet 0 is the
    type, octet 1 the code.  The result of [message_handler] is dropped. *)
Definition cast_icmp6 (packet : list byte) : M Z :=
  t <- load_u8 packet 0 ;;
  c <- load_u8 packet 1 ;;
  let icmp6 := {| icmp6_type := t; icmp6_code := c |} in
  message_handler icmp6 ;;
  ret 0.

(** The labels of the [switch], in source order. *)
Definition case_labels : list Z := [
  ICMP6_DST_UNREACH; ICMP6_PACKET_TOO_BIG; ICMP6_TIME_EXCEEDED;
  ICMP6_PARAM_PROB; ICMP6_ECHO_REQUEST; ICMP6_ECHO_REPLY;
  MLD_LISTENER_QUERY; MLD_LISTENER_REPORT; MLD_LISTENER_REDUCTION;
  ND_ROUTER_SOLICIT; ND_ROUTER_ADVERT; ND_NEIGHBOR_SOLICIT;
  ND_NEIGHBOR_ADVERT; ND_REDIRECT; ICMP6_ROUTER_RENUMBERING;
  ICMP6_NODE_INFORMATION_QUERY; ICMP6_NODE_INFORMATION_RESPONSE;
  ICMP6_INVERSE_NEIGHBOR_DISCOVERY_SOLICITATION_MESSAGE;
  ICMP6_INVERSE_NEIGHBOR_DISCOVERY_ADVERTISEMENT_MESSAGE;
  ICMP6_MULTICAST_LISTENER_DISCOVERY_REPORTS;
  ICMP6_HOME_AGENT_ADDRESS_DISCOVERY_REQUEST;
  ICMP6_HOME_AGENT_ADDRESS_DISCOVERY_REPLY;
  ICMP6_MOBILE_PREFIX_SOLICITATION; ICMP6_MOBILE_PREFIX_ADVERTISEMENT;
  ICMP6_CERTIFICATION_PATH_SOLICITATION;
  ICMP6_CERTIFICATION_PATH_ADVERTISEMENT;
  ICMP6_MULTICAST_ROUTER_SOLICITATION; ICMP6_MULTICAST_ROUTER_ADVERTISEMENT;
  ICMP6_MULTICAST_ROUTER_TERMINATION; ICMP6_RPL_CONTROL_MESSAGE;
  ICMPV6_EXT_ECHO_REQUEST; ICMPV6_EXT_ECHO_REPLY].

End Handlers.

(** ** Outcomes

    What a run of [message_handler] looks like from outside: a description
    on [stdout] and 0, a complaint on [stderr] and -1, or a diagnostic on
    [stderr] and 0. *)

Definition described (d : string) : M Z := Some (0, [(stdout, d)]).

Definition rejected (m : string) : M Z := Some (-1, [(stderr, m)]).

Definition unknown (m : string) : M Z := Some (0, [(stderr, m)]).

Definition Succeeds (r : M Z) : Prop := exists d, r = described d.

Definition InvalidCode (r : M Z) : Prop := exists m, r = rejected m.

Definition UnknownType (r : M Z) : Prop := exists m, r = unknown m.


(** ** The code checks, type by type *)

Section Policy.

Context {K : icmp6_types}.

(** The types whose [case] is the check [code > 0] followed by one fixed
    line, each with the line it prints. *)
Definition fixed_code_types : list (Z * string) := [
  (ICMP6_PACKET_TOO_BIG, "ICMP6 Packet too big" ++ LF);
  (ICMP6_ECHO_REQUEST, "ICMP6 Echo Request");
  (ICMP6_ECHO_REPLY, "ICMP6 Echo Reply" ++ LF);
  (MLD_LISTENER_QUERY, "MLD Multicast Listener Query" ++ LF);
  (MLD_LISTENER_REPORT, "MLD Multicast Listener Report" ++ LF);
  (MLD_LISTENER_REDUCTION, "MLD Multicast Listener Done" ++ LF);
  (ND_ROUTER_SOLICIT, "NDP Router Solicitation" ++ LF);
  (ND_ROUTER_ADVERT, "NDP Router Advertisement" ++ LF);
  (ND_NEIGHBOR_SOLICIT, "NDP Neighbor Solicitation" ++ LF);
  (ND_NEIGHBOR_ADVERT, "NDP Neighbor Advertisement" ++ LF);
  (ND_REDIRECT, "NDP Redirect Message" ++ LF);
  (ICMP6_INVERSE_NEIGHBOR_DISCOVERY_SOLICITATION_MESSAGE,
    "ICMP6 Inverse Neighbor Discovery Solicitation message" ++ LF);
  (ICMP6_INVERSE_NEIGHBOR_DISCOVERY_ADVERTISEMENT_MESSAGE,
    "ICMP6 Inverse Neighbor Discovery Advertisement messsage" ++ LF);
  (ICMP6_MULTICAST_LISTENER_DISCOVERY_REPORTS,
    "ICMP6 Multicast Listener Discovery Reports" ++ LF);
  (ICMP6_HOME_AGENT_ADDRESS_DISCOVERY_REQUEST,
    "ICMP6 Home Agent Address Discovery Request" ++ LF);
  (ICMP6_HOME_AGENT_ADDRESS_DISCOVERY_REPLY,
    "ICMP6 Home Agent Address Discovery Reply" ++ LF);
  (ICMP6_MOBILE_PREFIX_SOLICITATION, "ICMP6 Mobile Prefix Solicitation" ++ LF);
  (ICMP6_MOBILE_PREFIX_ADVERTISEMENT,
    "ICMP6 Mobile Prefix Advertisement" ++ LF);
  (ICMP6_CERTIFICATION_PATH_SOLICITATION,
    "ICMP6 Certififcation Path Solicitation" ++ LF);
  (ICMP6_CERTIFICATION_PATH_ADVERTISEMENT,
    "ICMP6 Certification Path Advertisement" ++ LF);
  (ICMP6_MULTICAST_ROUTER_SOLICITATION,
    "ICMP6 Multicast Router Solicitation" ++ LF);
  (ICMP6_MULTICAST_ROUTER_ADVERTISEMENT,
    "ICMP6 Multicast Router Advertisement" ++ LF);
  (ICMP6_MULTICAST_ROUTER_TERMINATION,
    "ICMP6 Multicast Router Termination" ++ LF);
  (ICMP6_RPL_CONTROL_MESSAGE, "ICMP6 RPL Control Message" ++ LF);
  (ICMPV6_EXT_ECHO_REQUEST, "ICMP6 Extended Echo Request" ++ LF)].



End Policy.

(** ** Lines *)

(** The last character of a line, if it has one. *)
Fixpoint last_char (s : string) : option ascii :=
  match s with
  | EmptyString => None
  | String a rest =>
      match rest with
      | EmptyString => Some a
      | String _ _ => last_char rest
      end
  end.

Definition ends_with_LF (s : string) : bool :=
  match last_char s with
  | Some a => Ascii.eqb a "010"%char
  | None => false
  end.

(** ** The [switch] construct *)

Lemma switch_In {A : Type} (v : Z) (cases : list (Z * A)) (d b : A) :
  NoDup (map fst cases) -> In (v, b) cases -> switch v cases d = b.
Proof.
  induction cases as [|[l c] rest IH]; simpl; intros ND HIn.
  - contradiction.
  - apply NoDup_cons_iff in ND. destruct ND as [Hfresh ND].
    destruct HIn as [E|HIn].
    + inversion E; subst. now rewrite Z.eqb_refl.
    + destruct (Z.eqb_spec v l) as [->|_]; [|now apply IH].
      exfalso. apply Hfresh. now apply (in_map fst) in HIn.
Qed.

Lemma switch_default {A : Type} (v : Z) (cases : list (Z * A)) (d : A) :
  ~ In v (map fst cases) -> switch v cases d = d.
Proof.
  induction cases as [|[l c] rest IH]; simpl; intros Hout; [reflexivity|].
  destruct (Z.eqb_spec v l) as [->|_].
  - exfalso. apply Hout. now left.
  - apply IH. intro H. apply Hout. now right.
Qed.

Lemma switch_skip {A : Type} (v l : Z) (b : A) (rest : list (Z * A)) (d : A) :
  v <> l -> switch v ((l, b) :: rest) d = switch v rest d.
Proof.
  intros Hne. simpl. now destruct (Z.eqb_spec v l).
Qed.

(** What holds of every body and of the default holds of the [switch]. *)
Lemma switch_all {A : Type} (P : A -> Prop) (v : Z) (cases : list (Z * A))
    (d : A) :
  P d -> Forall (fun lb => P (snd lb)) cases -> P (switch v cases d).
Proof.
  intros Hd Hall. induction Hall as [|[l b] rest Hb _ IH]; simpl; [exact Hd|].
  now destruct (v =? l).
Qed.

(** ** Runs and outcomes *)

Lemma bind_ret_l {A B : Type} (a : A) (k : A -> M B) : bind (ret a) k = k a.
Proof.
  unfold bind, ret. now destruct (k a) as [[b w]|].
Qed.

Lemma bind_ret_r {A : Type} (m : M A) : bind m ret = m.
Proof.
  destruct m as [[a w]|]; [|reflexivity].
  unfold bind, ret. now rewrite app_nil_r.
Qed.

Lemma bind_undefined {A B : Type} (k : A -> M B) : bind undefined k = undefined.
Proof.
  reflexivity.
Qed.

Lemma outcomes_exclusive (r : M Z) :
  ~ (Succeeds r /\ InvalidCode r) /\
  ~ (Succeeds r /\ UnknownType r) /\
  ~ (InvalidCode r /\ UnknownType r).
Proof.
  unfold Succeeds, InvalidCode, UnknownType, described, rejected, unknown.
  repeat split; intros [[a Ha] [b Hb]]; rewrite Ha in Hb; discriminate.
Qed.

Lemma u8_uint8 (b : byte) : uint8 (u8 b).
Proof.
  unfold uint8, u8. pose proof (Byte.to_N_bounded b). lia.
Qed.

(** ** Lines and their last character *)

Lemma last_char_app (a b : string) :
  b <> EmptyString -> last_char (a ++ b) = last_char b.
Proof.
  intros Hb. induction a as [|x a IH]; [reflexivity|].
  cbn [append].
  change (last_char (String x (a ++ b)))
    with (match a ++ b with
          | EmptyString => Some x
          | String _ _ => last_char (a ++ b)
          end).
  destruct (a ++ b) as [|y r] eqn:E; [|exact IH].
  destruct a; [cbn in E; contradiction|discriminate E].
Qed.

Lemma ends_with_LF_app (a b : string) : ends_with_LF (a ++ b ++ LF) = true.
Proof.
  unfold ends_with_LF.
  rewrite last_char_app by (destruct b; discriminate).
  rewrite last_char_app by discriminate. reflexivity.
Qed.

Lemma append_inv_head (p a b : string) : p ++ a = p ++ b -> a = b.
Proof.
  induction p as [|x p IH]; cbn [append]; intros H; [exact H|].
  injection H as H. now apply IH.
Qed.

Lemma append_inv_LF (a b : string) : a ++ LF = b ++ LF -> a = b.
Proof.
  revert b. induction a as [|x a IH]; intros [|y b] H; cbn in H.
  - reflexivity.
  - injection H as _ H. destruct b; discriminate H.
  - injection H as _ H. destruct a; discriminate H.
  - injection H as -> H. f_equal. now apply IH.
Qed.

(** Reading the digits of [%x] back gives the number printed. *)
Lemma fmt_x_value (v : Z) :
  0 <= v < 2 ^ 32 -> Z.of_N (HexString.Raw.to_N (fmt_x v) 0) = v.
Proof.
  intros Hv. unfold fmt_x. rewrite Z.mod_small by exact Hv.
  destruct v as [|p|p]; [reflexivity| |lia].
  rewrite HexString.Raw.to_N_of_pos. reflexivity.
Qed.

Section Classification.

Context {K : icmp6_types}.

(** A C compiler refuses a [switch] with two equal labels. *)
Hypothesis labels_distinct : NoDup case_labels.

(** Selects the [case] whose label is the type of the header; the labels
    are distinct, so it is the one that runs. *)
Ltac enter_case Ht :=
  unfold message_handler; rewrite Ht;
  erewrite switch_In;
  [ | exact labels_distinct | repeat first [ left; reflexivity | right ] ].

(** Decides the comparisons of the code that guard a [case]. *)
Ltac guards c :=
  repeat match goal with
         | |- context [c >? ?k] => destruct (Z.gtb_spec c k)
         | |- context [c <? ?k] => destruct (Z.ltb_spec c k)
         end;
  cbn [andb].

(** Off Destination Unreachable with code 7, no array is read out of bounds:
    the run is defined. *)
Lemma message_handler_defined (h : icmp6_hdr) :
  uint8 (icmp6_code h) ->
  ~ (icmp6_type h = ICMP6_DST_UNREACH /\ icmp6_code h = 7) ->
  message_handler h <> undefined.
Proof.
  destruct h as [t c]; simpl. intros [Hlo Hhi] Hoff.
  unfold message_handler; simpl icmp6_type; simpl icmp6_code.
  destruct (Z.eq_dec t ICMP6_DST_UNREACH) as [Ht|Ht].
  - rewrite Ht. unfold switch. rewrite Z.eqb_refl.
    destruct (Z.gtb_spec c 7); [discriminate|].
    assert (Hcases : c = 0 \/ c = 1 \/ c = 2 \/ c = 3 \/ c = 4 \/ c = 5 \/ c = 6)
      by (destruct (Z.eq_dec c 7); [tauto|lia]).
    destruct Hcases as [->|[->|[->|[->|[->|[->| ->]]]]]]; discriminate.
  - rewrite (switch_skip _ _ _ _ _ Ht).
    apply (switch_all (fun b => bind b _ <> undefined)); [discriminate|].
    repeat constructor; simpl snd; guards c; try discriminate;
      replace c with 0 by lia; discriminate.
Qed.

Lemma dst_unreach_code7 (h : icmp6_hdr) :
  icmp6_type h = ICMP6_DST_UNREACH -> icmp6_code h = 7 ->
  message_handler h = undefined.
Proof.
  destruct h as [t c]; simpl. intros -> ->.
  unfold message_handler; simpl icmp6_type; simpl icmp6_code.
  unfold switch. rewrite Z.eqb_refl. reflexivity.
Qed.

(** C1: for Destination Unreachable the codes 0 to 6 print the table entry
    of the code; the guard is [code > 7], so codes 8 to 255 are rejected
    and code 7 reads the seven-entry table one past its end. *)
Theorem dst_unreach_codes (h : icmp6_hdr) :
  icmp6_type h = ICMP6_DST_UNREACH ->
  uint8 (icmp6_code h) ->
  (icmp6_code h <= 6 ->
     exists s,
       nth_error destination_unreachable_message_v6
                 (Z.to_nat (icmp6_code h)) = Some s /\
       message_handler h =
         described ("ICMP6 Destination Unreachable: " ++ s ++ LF)) /\
  (icmp6_code h = 7 -> message_handler h = undefined) /\
  (8 <= icmp6_code h ->
     message_handler h = rejected ("Bad ICMP6 code" ++ LF)).
Proof.
  intros Ht Hc. repeat split; [| now apply dst_unreach_code7 |];
    destruct h as [t c]; simpl in *; destruct Hc as [Hlo Hhi];
    unfold message_handler; simpl icmp6_type; simpl icmp6_code;
    rewrite Ht; unfold switch; rewrite Z.eqb_refl.
  - intros Hc.
    assert (Hcases : c = 0 \/ c = 1 \/ c = 2 \/ c = 3 \/ c = 4 \/ c = 5 \/ c = 6)
      by lia.
    destruct Hcases as [->|[->|[->|[->|[->|[->| ->]]]]]];
      eexists; (split; [reflexivity|reflexivity]).
  - intros Hc. destruct (Z.gtb_spec c 7); [reflexivity|lia].
Qed.

(** C2: a header makes [message_handler] read an array out of bounds if and
    only if it is Destination Unreachable with code 7; on every other
    header the run is defined. *)
Theorem out_of_bounds_read (h : icmp6_hdr) :
  uint8 (icmp6_code h) ->
  message_handler h = undefined <->
  icmp6_type h = ICMP6_DST_UNREACH /\ icmp6_code h = 7.
Proof.
  intros Hc. split.
  - intros Hrun.
    destruct (Z.eq_dec (icmp6_type h) ICMP6_DST_UNREACH) as [Ht|Ht];
      destruct (Z.eq_dec (icmp6_code h) 7) as [Hc7|Hc7];
      try (split; assumption);
      exfalso; revert Hrun; apply message_handler_defined; tauto.
  - intros [Ht Hc7]. now apply dst_unreach_code7.
Qed.

(** C3: for Time Exceeded the guard is [code > 0]: code 0 prints the first
    table entry and every other code is rejected, code 1 included, whose
    table entry is therefore never printed. *)
Theorem time_exceeded_codes (h : icmp6_hdr) :
  icmp6_type h = ICMP6_TIME_EXCEEDED ->
  uint8 (icmp6_code h) ->
  (icmp6_code h = 0 ->
     message_handler h =
       described ("ICMP6 Time Exceeded: Hop limit exceeded in transit" ++ LF)) /\
  (1 <= icmp6_code h -> message_handler h = rejected ("Bad ICMP code" ++ LF)) /\
  nth_error time_exceeded_message_v6 1 =
    Some "Fragment reassembly time exceeded".
Proof.
  destruct h as [t c]; simpl. intros Ht [Hlo Hhi].
  enter_case Ht. simpl icmp6_code.
  repeat split.
  - intros ->. reflexivity.
  - intros Hc. destruct (Z.gtb_spec c 0); [reflexivity|lia].
Qed.

(** C4: for Parameter Problem the guard is [code > 0]: code 0 prints the
    first table entry and every other code is rejected, codes 1 and 2
    included, whose table entries are never printed. *)
Theorem param_prob_codes (h : icmp6_hdr) :
  icmp6_type h = ICMP6_PARAM_PROB ->
  uint8 (icmp6_code h) ->
  (icmp6_code h = 0 ->
     message_handler h =
       described ("ICMP6 Bad IP header: Erroneous header field encountered"
                  ++ LF)) /\
  (1 <= icmp6_code h -> message_handler h = rejected ("Bad ICMP code" ++ LF)) /\
  nth_error bad_ip_header_message_v6 1 =
    Some "Unrecognized Next Header type encountered" /\
  nth_error bad_ip_header_message_v6 2 =
    Some "Unrecognized IPv6 option encountered".
Proof.
  destruct h as [t c]; simpl. intros Ht [Hlo Hhi].
  enter_case Ht. simpl icmp6_code.
  repeat split.
  - intros ->. reflexivity.
  - intros Hc. destruct (Z.gtb_spec c 0); [reflexivity|lia].
Qed.

(** C5: for Extended Echo Reply the guard is [code > 0]: code 0 prints
    "No error" and every other code is rejected, codes 1 to 4 included; the
    table entry of code 4 is spelled "Multipe interfaces satisfy query". *)
Theorem ext_echo_reply_codes (h : icmp6_hdr) :
  icmp6_type h = ICMPV6_EXT_ECHO_REPLY ->
  uint8 (icmp6_code h) ->
  (icmp6_code h = 0 ->
     message_handler h =
       described ("ICMP6 Extended Echo Reply: No error" ++ LF)) /\
  (1 <= icmp6_code h -> message_handler h = rejected ("Bad ICMP code" ++ LF)) /\
  List.length extended_echo_reply_message_v6 = 5%nat /\
  nth_error extended_echo_reply_message_v6 4 =
    Some "Multipe interfaces satisfy query".
Proof.
  destruct h as [t c]; simpl. intros Ht [Hlo Hhi].
  enter_case Ht. simpl icmp6_code.
  repeat split.
  - intros ->. reflexivity.
  - intros Hc. destruct (Z.gtb_spec c 0); [reflexivity|lia].
Qed.

(** C6: for Router Renumbering the codes 0, 1 and 255 are the ones that
    print the type line, and the codes 2 to 254 the ones that are
    rejected. *)
Theorem router_renumbering_codes (h : icmp6_hdr) :
  icmp6_type h = ICMP6_ROUTER_RENUMBERING ->
  uint8 (icmp6_code h) ->
  (Succeeds (message_handler h) <->
     icmp6_code h = 0 \/ icmp6_code h = 1 \/ icmp6_code h = 255) /\
  (InvalidCode (message_handler h) <-> 2 <= icmp6_code h <= 254) /\
  (icmp6_code h = 0 \/ icmp6_code h = 1 \/ icmp6_code h = 255 ->
     message_handler h = described ("ICMP6 Router Renumbering" ++ LF)) /\
  (2 <= icmp6_code h <= 254 ->
     message_handler h = rejected ("Bad ICMP code" ++ LF)).
Proof.
  destruct h as [t c]; cbn [icmp6_type icmp6_code]. intros Ht [Hlo Hhi].
  enter_case Ht. cbn [icmp6_code]. guards c;
    (split; [split|split; [split|split]];
     [ intros [d Hrun]; first [lia | cbv in Hrun; discriminate Hrun]
     | intros Hc; first [eexists; reflexivity | lia]
     | intros [m Hrun]; first [lia | cbv in Hrun; discriminate Hrun]
     | intros Hc; first [eexists; reflexivity | lia]
     | intros Hc; first [reflexivity | lia]
     | intros Hc; first [reflexivity | lia] ]).
Qed.

(** C7: for every type whose case is a fixed line (Packet Too Big, Echo
    Request and Reply, the MLD and NDP messages, RPL Control, the Home
    Agent, Mobile Prefix, Certification Path, Multicast Router and Inverse
    Neighbor Discovery messages, Extended Echo Request) and every code in
    0..255, code 0 prints the line of the type and returns 0, every other
    code is rejected; so the run succeeds if and only if the code is 0. *)
Theorem fixed_code_types_zero_only (h : icmp6_hdr) (d : string) :
  In (icmp6_type h, d) fixed_code_types ->
  uint8 (icmp6_code h) ->
  (icmp6_code h = 0 -> message_handler h = described d) /\
  (icmp6_code h <> 0 -> InvalidCode (message_handler h)) /\
  (Succeeds (message_handler h) <-> icmp6_code h = 0).
Proof.
  destruct h as [t c]; cbn [icmp6_type icmp6_code]. intros HIn [Hlo Hhi].
  unfold fixed_code_types in HIn. cbn [In] in HIn.
  repeat (destruct HIn as [E|HIn];
          [injection E as Ht <-; symmetry in Ht|]); [..|contradiction];
    enter_case Ht; cbn [icmp6_code]; guards c;
    (split; [|split; [|split]];
     [ intros Hc; first [reflexivity | lia]
     | intros Hc; first [eexists; reflexivity | lia]
     | intros [d' Hrun]; first [lia | cbv in Hrun; discriminate Hrun]
     | intros Hc; first [eexists; reflexivity | lia] ]).
Qed.

(** C8: a type that is none of the labels falls to [default], which
    returns 0 after one line on [stderr]; the number that line gives in
    hexadecimal is the code of the header, not its type. *)
Theorem unknown_type_diagnostic (h : icmp6_hdr) :
  ~ In (icmp6_type h) case_labels ->
  message_handler h =
    unknown ("Unknown ICMP type. ICMP TYPE: 0x" ++ fmt_x (icmp6_code h) ++ LF).
Proof.
  intros Hout. unfold message_handler.
  rewrite switch_default by exact Hout. reflexivity.
Qed.

Lemma cast_icmp6_drops_result (t c : byte) (rest : list byte) :
  let h := {| icmp6_type := u8 t; icmp6_code := u8 c |} in
  (message_handler h = undefined -> cast_icmp6 (t :: c :: rest) = undefined) /\
  (forall v w, message_handler h = Some (v, w) ->
               cast_icmp6 (t :: c :: rest) = Some (0, w)).
Proof.
  cbv zeta. unfold cast_icmp6, load_u8. cbn [nth_error].
  rewrite !bind_ret_l. split.
  - intros ->. reflexivity.
  - intros v w ->. unfold ret. cbn [bind]. now rewrite app_nil_r.
Qed.

(** C9: [cast_icmp6] returns 0 on every packet on which [message_handler]
    runs to an end, whatever [message_handler] returned, and writes what
    it wrote; on Destination Unreachable with code 7 the out-of-bounds read
    of [message_handler] leaves [cast_icmp6] without a defined result. *)
Theorem cast_icmp6_status (t c : byte) (rest : list byte) :
  let h := {| icmp6_type := u8 t; icmp6_code := u8 c |} in
  (u8 t = ICMP6_DST_UNREACH /\ u8 c = 7 ->
     cast_icmp6 (t :: c :: rest) = undefined) /\
  (~ (u8 t = ICMP6_DST_UNREACH /\ u8 c = 7) ->
     exists v w, message_handler h = Some (v, w) /\
                 cast_icmp6 (t :: c :: rest) = Some (0, w)).
Proof.
  cbv zeta. destruct (cast_icmp6_drops_result t c rest) as [Hundef Hdef].
  cbv zeta in Hundef, Hdef. split.
  - intros [Ht Hc]. apply Hundef. now apply dst_unreach_code7.
  - intros Hoff.
    destruct (message_handler {| icmp6_type := u8 t; icmp6_code := u8 c |})
      as [[v w]|] eqn:Hrun.
    + exists v, w. split; [reflexivity|]. exact (Hdef v w eq_refl).
    + exfalso. revert Hrun. apply message_handler_defined.
      * apply u8_uint8.
      * exact Hoff.
Qed.


(** Closes a goal whose hypothesis [Hw] says that a run that printed its
    line, or read its table, came back with -1. *)
Ltac absurd_run c Hw :=
  first
    [ solve [ cbv in Hw; discriminate Hw ]
    | solve [ replace c with 0 in Hw by lia; cbv in Hw; discriminate Hw ]
    | solve [ assert (Hcases : c = 0 \/ c = 1 \/ c = 2 \/ c = 3 \/ c = 4 \/
                               c = 5 \/ c = 6 \/ c = 7) by lia;
              destruct Hcases as [->|[->|[->|[->|[->|[->|[->| ->]]]]]]];
              cbv in Hw; discriminate Hw ] ].



(** ** The handler as a whole *)

Ltac by_label HIn :=
  unfold case_labels in HIn; cbn [In] in HIn;
  repeat (destruct HIn as [Ht|HIn]; [symmetry in Ht|]); [..|contradiction].

(** X1: Node Information Query and Response accept the codes 0 to 2 and
    reject the codes 3 to 255. *)
Theorem node_information_codes (h : icmp6_hdr) :
  icmp6_type h = ICMP6_NODE_INFORMATION_QUERY \/
  icmp6_type h = ICMP6_NODE_INFORMATION_RESPONSE ->
  uint8 (icmp6_code h) ->
  (Succeeds (message_handler h) <-> icmp6_code h <= 2) /\
  (3 <= icmp6_code h ->
     message_handler h = rejected ("Bad ICMP code" ++ LF)) /\
  (icmp6_type h = ICMP6_NODE_INFORMATION_QUERY -> icmp6_code h <= 2 ->
     message_handler h = described ("ICMP6 Node Information Query" ++ LF)) /\
  (icmp6_type h = ICMP6_NODE_INFORMATION_RESPONSE -> icmp6_code h <= 2 ->
     message_handler h = described ("ICMP6 Node Information Response" ++ LF)).
Proof.
  destruct h as [t c]; cbn [icmp6_type icmp6_code]. intros Hty [Hlo Hhi].
  assert (Hrun :
    (c <= 2 -> Succeeds (message_handler (hdr t c))) /\
    (3 <= c -> message_handler (hdr t c) = rejected ("Bad ICMP code" ++ LF))).
  { unfold hdr. destruct Hty as [Ht|Ht]; enter_case Ht; cbn [icmp6_code];
      guards c; (split; intros Hc; first [lia | reflexivity | eexists; reflexivity]). }
  unfold hdr in Hrun. destruct Hrun as [Hok Hbad].
  split; [split|split; [|split]].
  - intros [d Hd]. destruct (Z.le_gt_cases c 2) as [Hle|Hgt]; [exact Hle|].
    rewrite Hbad in Hd by lia. discriminate Hd.
  - exact Hok.
  - exact Hbad.
  - intros Ht Hc. enter_case Ht. cbn [icmp6_code]. guards c; [lia|reflexivity].
  - intros Ht Hc. enter_case Ht. cbn [icmp6_code]. guards c; [lia|reflexivity].
Qed.

(** X2: a run of [message_handler] that stays within bounds writes exactly
    one line: a description on [stdout] with 0, one of the two complaints
    on [stderr] with -1, or the unknown-type diagnostic on [stderr] with 0. *)
Theorem message_handler_one_line (h : icmp6_hdr) :
  uint8 (icmp6_code h) ->
  message_handler h <> undefined ->
  (exists d, message_handler h = described d) \/
  message_handler h = rejected ("Bad ICMP6 code" ++ LF) \/
  message_handler h = rejected ("Bad ICMP code" ++ LF) \/
  message_handler h =
    unknown ("Unknown ICMP type. ICMP TYPE: 0x" ++ fmt_x (icmp6_code h) ++ LF).
Proof.
  destruct h as [t c]; cbn [icmp6_type icmp6_code]. intros [Hlo Hhi].
  unfold message_handler; cbn [icmp6_type icmp6_code].
  apply (switch_all
           (fun b =>
              bind b _ <> undefined ->
              (exists d, bind b _ = described d) \/
              bind b _ = rejected ("Bad ICMP6 code" ++ LF) \/
              bind b _ = rejected ("Bad ICMP code" ++ LF) \/
              bind b _ = unknown _)).
  - intros _. right; right; right. reflexivity.
  - repeat first [ apply Forall_nil | apply Forall_cons ]; cbn [snd];
      guards c; intros Hdef;
      lazymatch goal with
      | |- context [index destination_unreachable_message_v6 c] =>
          assert (Hcases : c = 0 \/ c = 1 \/ c = 2 \/ c = 3 \/ c = 4 \/
                           c = 5 \/ c = 6 \/ c = 7) by lia;
          destruct Hcases as [->|[->|[->|[->|[->|[->|[->| ->]]]]]]];
          first [ solve [ left; eexists; reflexivity ]
                | exfalso; apply Hdef; reflexivity ]
      | |- context [index _ c] =>
          replace c with 0 by lia; left; eexists; reflexivity
      | _ =>
          first [ solve [ right; left; reflexivity ]
                | solve [ right; right; left; reflexivity ]
                | solve [ left; eexists; reflexivity ] ]
      end.
Qed.

(** X3: the unknown-type diagnostic is written for the types outside the
    labels of the [switch] and for no other. *)
Theorem unknown_type_iff (h : icmp6_hdr) :
  uint8 (icmp6_code h) ->
  UnknownType (message_handler h) <-> ~ In (icmp6_type h) case_labels.
Proof.
  destruct h as [t c]; cbn [icmp6_type icmp6_code]. intros [Hlo Hhi]. split.
  - intros [m Hw] HIn. revert Hw. by_label HIn;
      enter_case Ht; cbn [icmp6_code]; guards c; intros Hw; absurd_run c Hw.
  - intros Hout. unfold message_handler. cbn [icmp6_type].
    rewrite switch_default by exact Hout. eexists; reflexivity.
Qed.

(** X4: code 0 is accepted by every type the [switch] has a case for. *)
Theorem code_zero_accepted (type : Z) :
  In type case_labels -> Succeeds (message_handler (hdr type 0)).
Proof.
  intros HIn. unfold hdr. by_label HIn;
    enter_case Ht; cbn [icmp6_code]; eexists; reflexivity.
Qed.


(** X6: off Router Renumbering, the rejected codes of a type are closed
    upwards: once a code is rejected, every larger code is. *)
Theorem rejection_upward_closed (type c c' : Z) :
  type <> ICMP6_ROUTER_RENUMBERING ->
  uint8 c ->
  c <= c' ->
  InvalidCode (message_handler (hdr type c)) ->
  InvalidCode (message_handler (hdr type c')).
Proof.
  intros Hrr [Hlo Hhi] Hle [m Hw]. unfold hdr in *.
  destruct (in_dec Z.eq_dec type case_labels) as [HIn|Hout].
  - revert Hw. by_label HIn; try (exfalso; apply Hrr; exact Ht);
      enter_case Ht;
      (erewrite switch_In;
       [ | exact labels_distinct | repeat first [ left; reflexivity | right ] ]);
      cbn [icmp6_code]; guards c; intros Hw;
      first [ absurd_run c Hw
            | guards c'; first [ lia | eexists; reflexivity ] ].
  - exfalso. revert Hw. unfold message_handler. cbn [icmp6_type].
    rewrite switch_default by exact Hout. discriminate.
Qed.

Lemma message_handler_default (h : icmp6_hdr) :
  ~ In (icmp6_type h) case_labels ->
  message_handler h =
    unknown ("Unknown ICMP type. ICMP TYPE: 0x" ++ fmt_x (icmp6_code h) ++ LF).
Proof.
  intros Hout. unfold message_handler.
  rewrite switch_default by exact Hout. reflexivity.
Qed.

(** Reads the line of a finished run into the context. *)
Ltac read_line Hw :=
  cbv in Hw; injection Hw as Hv Hf Hs; subst.

(** X7: the one line of a run ends with a line feed, except the line of
    Echo Request with code 0, which does not. *)
Theorem line_feed_missing_iff (h : icmp6_hdr) (v : Z) (f : stream)
    (s : string) :
  uint8 (icmp6_code h) ->
  message_handler h = Some (v, [(f, s)]) ->
  ends_with_LF s = false <->
  icmp6_type h = ICMP6_ECHO_REQUEST /\ icmp6_code h = 0.
Proof.
  destruct h as [t c]; cbn [icmp6_type icmp6_code]. intros [Hlo Hhi] Hw. split.
  - intros Hnl.
    destruct (in_dec Z.eq_dec t case_labels) as [HIn|Hout].
    + revert Hw. by_label HIn;
        enter_case Ht; cbn [icmp6_code]; guards c; intros Hw;
        lazymatch type of Hw with
        | context [index destination_unreachable_message_v6 c] =>
            assert (Hcases : c = 0 \/ c = 1 \/ c = 2 \/ c = 3 \/ c = 4 \/
                             c = 5 \/ c = 6 \/ c = 7) by lia;
            destruct Hcases as [->|[->|[->|[->|[->|[->|[->| ->]]]]]]];
            first [ discriminate Hw
                  | read_line Hw; cbv in Hnl; discriminate Hnl ]
        | context [index _ c] =>
            replace c with 0 in Hw by lia;
            read_line Hw; cbv in Hnl; discriminate Hnl
        | _ =>
            read_line Hw;
            first [ split; [reflexivity|lia] | cbv in Hnl; discriminate Hnl ]
        end.
    + rewrite message_handler_default in Hw by exact Hout.
      cbn [icmp6_code] in Hw. unfold unknown in Hw.
      assert (Hs : s = "Unknown ICMP type. ICMP TYPE: 0x" ++ fmt_x c ++ LF)
        by congruence.
      rewrite Hs, ends_with_LF_app in Hnl. discriminate Hnl.
  - intros [Ht ->]. revert Hw. enter_case Ht. cbn [icmp6_code].
    intros Hw. read_line Hw. reflexivity.
Qed.

(** X8: [cast_icmp6] reads octets 0 and 1 without looking at a length: a
    buffer of fewer than two octets is read past its end. *)
Theorem cast_icmp6_short_packet (packet : list byte) :
  (List.length packet < 2)%nat -> cast_icmp6 packet = undefined.
Proof.
  destruct packet as [|t [|c rest]]; cbn [List.length]; intros Hlen.
  - reflexivity.
  - reflexivity.
  - lia.
Qed.

(** X9: [cast_icmp6] looks at the first two octets only: two buffers that
    agree on them, whatever checksum and body follow, run alike. *)
Theorem cast_icmp6_header_only (p p' : list byte) :
  firstn 2 p = firstn 2 p' -> cast_icmp6 p = cast_icmp6 p'.
Proof.
  destruct p as [|t [|c rest]]; destruct p' as [|t' [|c' rest']];
    cbn [firstn]; intros E; try discriminate E; try reflexivity.
  injection E as -> ->. reflexivity.
Qed.

(** X10: whenever [cast_icmp6] returns, it returns 0, the buffer had its two
    header octets, and what was written is what [message_handler] wrote on
    that header, whatever [message_handler] returned. *)
Theorem cast_icmp6_inversion (packet : list byte) (v : Z) (w : list event) :
  cast_icmp6 packet = Some (v, w) ->
  v = 0 /\
  exists t c rest v',
    packet = t :: c :: rest /\
    message_handler (hdr (u8 t) (u8 c)) = Some (v', w).
Proof.
  destruct packet as [|t [|c rest]]; intros Hrun; try discriminate Hrun.
  destruct (cast_icmp6_drops_result t c rest) as [Hundef Hdef].
  cbv zeta in Hundef, Hdef. unfold hdr.
  destruct (message_handler {| icmp6_type := u8 t; icmp6_code := u8 c |})
    as [[v' w']|] eqn:Hmh.
  - rewrite (Hdef v' w' eq_refl) in Hrun. injection Hrun as <- <-.
    split; [reflexivity|]. exists t, c, rest, v'. split; [reflexivity|exact Hmh].
  - rewrite (Hundef eq_refl) in Hrun. discriminate Hrun.
Qed.

(** X11: on the types without a case, the run tells the code and nothing
    else: two such headers run alike exactly when their codes are equal,
    whatever their types. *)
Theorem unknown_type_run_tells_code (t c t' c' : Z) :
  ~ In t case_labels -> ~ In t' case_labels ->
  uint8 c -> uint8 c' ->
  message_handler (hdr t c) = message_handler (hdr t' c') <-> c = c'.
Proof.
  intros Ht Ht' [Hlo Hhi] [Hlo' Hhi'].
  rewrite (message_handler_default (hdr t c)) by exact Ht.
  rewrite (message_handler_default (hdr t' c')) by exact Ht'.
  cbn [hdr icmp6_code]. split.
  - intros E. unfold unknown in E.
    assert (E' : "Unknown ICMP type. ICMP TYPE: 0x" ++ fmt_x c ++ LF =
                 "Unknown ICMP type. ICMP TYPE: 0x" ++ fmt_x c' ++ LF)
      by congruence.
    apply append_inv_head in E'. apply append_inv_LF in E'. clear E.
    rename E' into E.
    rewrite <- (fmt_x_value c) by lia. rewrite <- (fmt_x_value c') by lia.
    now rewrite E.
  - intros ->. reflexivity.
Qed.

End Classification.

(** ** Runs on concrete headers, with the IANA numbers *)

#[local] Existing Instance iana.

Lemma iana_labels_distinct : NoDup case_labels.
Proof.
  unfold case_labels. cbn.
  repeat (constructor; [cbn [In]; lia|]). constructor.
Qed.

Lemma dst_unreach_codes_witness :
  uint8 7 /\ message_handler (hdr 1 7) = undefined.
Proof.
  split; [unfold uint8; lia|].
  apply (dst_unreach_codes (hdr 1 7));
    [reflexivity | unfold uint8; simpl; lia | reflexivity].
Defined.

Lemma out_of_bounds_read_witness :
  uint8 7 /\
  (message_handler (hdr 1 7) = undefined <->
   icmp6_type (hdr 1 7) = ICMP6_DST_UNREACH /\ icmp6_code (hdr 1 7) = 7).
Proof.
  split; [unfold uint8; lia|].
  apply (out_of_bounds_read (hdr 1 7)). unfold uint8; simpl; lia.
Defined.

Lemma time_exceeded_codes_witness :
  uint8 1 /\ message_handler (hdr 3 1) = rejected ("Bad ICMP code" ++ LF).
Proof.
  split; [unfold uint8; lia|].
  apply (time_exceeded_codes iana_labels_distinct (hdr 3 1));
    [reflexivity | unfold uint8; simpl; lia | simpl; lia].
Defined.

Lemma param_prob_codes_witness :
  uint8 2 /\ message_handler (hdr 4 2) = rejected ("Bad ICMP code" ++ LF).
Proof.
  split; [unfold uint8; lia|].
  apply (param_prob_codes iana_labels_distinct (hdr 4 2));
    [reflexivity | unfold uint8; simpl; lia | simpl; lia].
Defined.

Lemma ext_echo_reply_codes_witness :
  uint8 4 /\ message_handler (hdr 161 4) = rejected ("Bad ICMP code" ++ LF).
Proof.
  split; [unfold uint8; lia|].
  apply (ext_echo_reply_codes iana_labels_distinct (hdr 161 4));
    [reflexivity | unfold uint8; simpl; lia | simpl; lia].
Defined.

Lemma router_renumbering_codes_witness :
  uint8 255 /\
  Succeeds (message_handler (hdr 138 255)) /\
  message_handler (hdr 138 255) = described ("ICMP6 Router Renumbering" ++ LF).
Proof.
  split; [unfold uint8; lia|].
  destruct (router_renumbering_codes iana_labels_distinct (hdr 138 255))
    as [Hok [_ [Hline _]]];
    [reflexivity | unfold uint8; simpl; lia |].
  split; [apply Hok | apply Hline]; simpl; lia.
Defined.

Lemma fixed_code_types_zero_only_witness :
  In (128, "ICMP6 Echo Request") fixed_code_types /\
  uint8 0 /\
  message_handler (hdr 128 0) = described "ICMP6 Echo Request".
Proof.
  assert (HIn : In (128, "ICMP6 Echo Request") fixed_code_types)
    by (right; left; reflexivity).
  split; [exact HIn|]. split; [unfold uint8; lia|].
  apply (fixed_code_types_zero_only iana_labels_distinct (hdr 128 0));
    [exact HIn | unfold uint8; simpl; lia | reflexivity].
Defined.

Lemma unknown_type_diagnostic_witness :
  ~ In 250 case_labels /\
  message_handler (hdr 250 3) =
    unknown ("Unknown ICMP type. ICMP TYPE: 0x3" ++ LF).
Proof.
  assert (Hout : ~ In 250 case_labels) by (cbn; lia).
  split; [exact Hout|].
  exact (unknown_type_diagnostic (hdr 250 3) Hout).
Defined.

Lemma cast_icmp6_status_witness :
  cast_icmp6 [x01; x07; x00; x00] = undefined /\
  cast_icmp6 [x03; x01; x00; x00] = Some (0, [(stderr, "Bad ICMP code" ++ LF)]).
Proof.
  split.
  - apply (cast_icmp6_status x01 x07 [x00; x00]). split; reflexivity.
  - destruct (cast_icmp6_status x03 x01 [x00; x00]) as [_ Hdef].
    destruct Hdef as [v [w [Hrun Hcast]]].
    + intros [Ht _]. discriminate Ht.
    + rewrite Hcast. injection Hrun as _ <-. reflexivity.
Defined.


(** The header Destination Unreachable with code 3 names the port. *)
Example dst_unreach_port_unreachable :
  message_handler (hdr 1 3) =
    described ("ICMP6 Destination Unreachable: Port unreachable" ++ LF).
Proof. reflexivity. Qed.

Example dst_unreach_code9_rejected :
  message_handler (hdr 1 9) = rejected ("Bad ICMP6 code" ++ LF).
Proof. reflexivity. Qed.

(** Code 7 passes the check [code > 7] and indexes a table of seven. *)
Example dst_unreach_code7_run :
  (7 >? 7) = false /\
  List.length destination_unreachable_message_v6 = 7%nat /\
  index destination_unreachable_message_v6 7 = undefined /\
  message_handler (hdr 1 7) = undefined.
Proof. repeat split. Qed.

Example echo_request_code0 :
  message_handler (hdr 128 0) = described "ICMP6 Echo Request".
Proof. reflexivity. Qed.

Example echo_request_code1_rejected :
  message_handler (hdr 128 1) = rejected ("Bad ICMP code" ++ LF).
Proof. reflexivity. Qed.

Example router_renumbering_code255 :
  message_handler (hdr 138 255) = described ("ICMP6 Router Renumbering" ++ LF).
Proof. reflexivity. Qed.

(** The second entry of the Time Exceeded table is out of reach. *)
Example time_exceeded_code1_rejected :
  message_handler (hdr 3 1) = rejected ("Bad ICMP code" ++ LF) /\
  index time_exceeded_message_v6 1 = ret "Fragment reassembly time exceeded".
Proof. split; reflexivity. Qed.

Example param_prob_code1_rejected :
  message_handler (hdr 4 1) = rejected ("Bad ICMP code" ++ LF) /\
  index bad_ip_header_message_v6 1 =
    ret "Unrecognized Next Header type encountered".
Proof. split; reflexivity. Qed.

Example ext_echo_reply_code1_rejected :
  message_handler (hdr 161 1) = rejected ("Bad ICMP code" ++ LF) /\
  index extended_echo_reply_message_v6 1 = ret "Malformed query".
Proof. split; reflexivity. Qed.

(** The fifth entry of the Extended Echo Reply table is not the text
    "Multiple interfaces satisfy query". *)
Example ext_echo_reply_entry4 :
  index extended_echo_reply_message_v6 4 =
    ret "Multipe interfaces satisfy query" /\
  index extended_echo_reply_message_v6 4 <>
    ret "Multiple interfaces satisfy query".
Proof. split; [reflexivity|discriminate]. Qed.

(** Type 250 (0xfa) with code 3: the diagnostic reads 0x3. *)
Example unknown_type_250_code3 :
  fmt_x 250 = "fa" /\
  message_handler (hdr 250 3) =
    unknown ("Unknown ICMP type. ICMP TYPE: 0x3" ++ LF) /\
  message_handler (hdr 250 3) <>
    unknown ("Unknown ICMP type. ICMP TYPE: 0xfa" ++ LF).
Proof. repeat split. discriminate. Qed.

Example cast_icmp6_dst_unreach_code7 :
  cast_icmp6 [x01; x07; x00; x00; x00; x00; x00; x00] = undefined.
Proof. reflexivity. Qed.

Example cast_icmp6_echo_request :
  cast_icmp6 [x80; x00; x00; x00; x00; x00; x00; x00] =
    Some (0, [(stdout, "ICMP6 Echo Request")]).
Proof. reflexivity. Qed.

(** ** The handler as a whole, on concrete headers *)

Lemma node_information_codes_witness :
  uint8 2 /\
  message_handler (hdr 139 2) =
    described ("ICMP6 Node Information Query" ++ LF).
Proof.
  split; [unfold uint8; lia|].
  destruct (node_information_codes iana_labels_distinct (hdr 139 2))
    as [_ [_ [Hquery _]]];
    [left; reflexivity | unfold uint8; simpl; lia |].
  apply Hquery; [reflexivity | simpl; lia].
Defined.

Lemma message_handler_one_line_witness :
  uint8 1 /\
  message_handler (hdr 3 1) <> undefined /\
  ((exists d, message_handler (hdr 3 1) = described d) \/
   message_handler (hdr 3 1) = rejected ("Bad ICMP6 code" ++ LF) \/
   message_handler (hdr 3 1) = rejected ("Bad ICMP code" ++ LF) \/
   message_handler (hdr 3 1) =
     unknown ("Unknown ICMP type. ICMP TYPE: 0x" ++ fmt_x 1 ++ LF)).
Proof.
  assert (Hdef : message_handler (hdr 3 1) <> undefined) by discriminate.
  split; [unfold uint8; lia|]. split; [exact Hdef|].
  apply (message_handler_one_line (hdr 3 1)); [unfold uint8; simpl; lia|].
  exact Hdef.
Defined.

Lemma unknown_type_iff_witness :
  uint8 3 /\ UnknownType (message_handler (hdr 250 3)).
Proof.
  split; [unfold uint8; lia|].
  apply (unknown_type_iff iana_labels_distinct (hdr 250 3));
    [unfold uint8; simpl; lia | cbn; lia].
Defined.

Lemma code_zero_accepted_witness :
  In 155 case_labels /\ Succeeds (message_handler (hdr 155 0)).
Proof.
  assert (HIn : In 155 case_labels) by (cbn; lia).
  split; [exact HIn|].
  exact (code_zero_accepted iana_labels_distinct 155 HIn).
Defined.


Lemma rejection_upward_closed_witness :
  1 <> ICMP6_ROUTER_RENUMBERING /\
  uint8 8 /\
  8 <= 200 /\
  InvalidCode (message_handler (hdr 1 8)) /\
  InvalidCode (message_handler (hdr 1 200)).
Proof.
  assert (Hbad : InvalidCode (message_handler (hdr 1 8)))
    by (eexists; reflexivity).
  split; [discriminate|]. split; [unfold uint8; lia|]. split; [lia|].
  split; [exact Hbad|].
  apply (rejection_upward_closed iana_labels_distinct 1 8 200);
    [discriminate | unfold uint8; lia | lia | exact Hbad].
Defined.

Lemma line_feed_missing_iff_witness :
  uint8 0 /\
  message_handler (hdr 128 0) = Some (0, [(stdout, "ICMP6 Echo Request")]) /\
  ends_with_LF "ICMP6 Echo Request" = false.
Proof.
  split; [unfold uint8; lia|]. split; [reflexivity|].
  apply (line_feed_missing_iff iana_labels_distinct (hdr 128 0) 0 stdout);
    [unfold uint8; simpl; lia | reflexivity | split; reflexivity].
Defined.

Lemma cast_icmp6_short_packet_witness :
  (List.length [x80] < 2)%nat /\ cast_icmp6 [x80] = undefined.
Proof.
  split; [simpl; lia|].
  apply (cast_icmp6_short_packet [x80]). simpl; lia.
Defined.

Lemma cast_icmp6_header_only_witness :
  firstn 2 [x80; x00; x12; x34] = firstn 2 [x80; x00; xff; xff; x00] /\
  cast_icmp6 [x80; x00; x12; x34] = cast_icmp6 [x80; x00; xff; xff; x00].
Proof.
  split; [reflexivity|].
  apply (cast_icmp6_header_only [x80; x00; x12; x34]
                                [x80; x00; xff; xff; x00]).
  reflexivity.
Defined.

Lemma cast_icmp6_inversion_witness :
  cast_icmp6 [x03; x01; x00; x00] =
    Some (0, [(stderr, "Bad ICMP code" ++ LF)]) /\
  exists t c rest v',
    [x03; x01; x00; x00] = t :: c :: rest /\
    message_handler (hdr (u8 t) (u8 c)) =
      Some (v', [(stderr, "Bad ICMP code" ++ LF)]).
Proof.
  split; [reflexivity|].
  apply (cast_icmp6_inversion [x03; x01; x00; x00] 0).
  reflexivity.
Defined.

Lemma unknown_type_run_tells_code_witness :
  ~ In 250 case_labels /\ ~ In 251 case_labels /\ uint8 3 /\
  message_handler (hdr 250 3) = message_handler (hdr 251 3).
Proof.
  assert (H250 : ~ In 250 case_labels) by (cbn; lia).
  assert (H251 : ~ In 251 case_labels) by (cbn; lia).
  assert (H3 : uint8 3) by (unfold uint8; lia).
  split; [exact H250|]. split; [exact H251|]. split; [exact H3|].
  apply (unknown_type_run_tells_code 250 3 251 3 H250 H251 H3 H3).
  reflexivity.
Defined.
